(** * pyLinguist.baseTypes: the exception type and the generic API handler

    A shallow embedding of [src/pyLinguist/baseTypes.py].  Python objects
    are modelled by small inductive types, keyword dictionaries by
    [gmap string Value], and the two collaborators of the module (the HTTP
    client [requests] and the package logger) by a [World] that records
    every request sent and every warning logged. *)

From Stdlib Require Import ZArith.
From stdpp Require Import base option list strings gmap.

Set Warnings "-register-all".

Open Scope Z_scope.
Open Scope string_scope.

(** ** Python values *)

(** The values that travel through keyword arguments and decoded JSON
    bodies.  A dict is kept as an association list, in insertion order. *)
Inductive Value : Type :=
| VNone
| VBool (b : bool)
| VInt (n : Z)
| VStr (s : string)
| VList (items : list Value)
| VDict (entries : list (string * Value)).

(** Python truth value: [None], [False], [0] and empty containers are
    false. *)
Definition truthy (v : Value) : bool :=
  match v with
  | VNone => false
  | VBool b => b
  | VInt n => negb (Z.eqb n 0)
  | VStr s => negb (String.eqb s "")
  | VList items => match items with [] => false | _ => true end
  | VDict entries => match entries with [] => false | _ => true end
  end.

(** [str] truth value, for [api_key], [url] and [self._json]. *)
Definition str_truthy (s : string) : bool := negb (String.eqb s "").

(** An [xml.etree.ElementTree.Element]: the code reads the tag (through
    [find]), the text, and iterates over the children. *)
Inductive Element : Type :=
| Elem (tag : string) (text : option string) (children : list Element).

Definition elem_tag (e : Element) : string :=
  match e with Elem t _ _ => t end.
Definition elem_text (e : Element) : option string :=
  match e with Elem _ t _ => t end.
Definition elem_children (e : Element) : list Element :=
  match e with Elem _ _ cs => cs end.

(** [e.find(tag)] with a plain tag: the first direct child so tagged. *)
Definition find (e : Element) (tag : string) : option Element :=
  List.find (fun c => String.eqb (elem_tag c) tag) (elem_children e).

(** [x.text] as a Python value ([None] when the element has no text). *)
Definition text_value (e : Element) : Value :=
  match elem_text e with Some s => VStr s | None => VNone end.

(** [[x.text for x in e]] *)
Definition texts (e : Element) : Value :=
  VList (map text_value (elem_children e)).

(** The body of an HTTP response, by what it decodes to:
    [response.json()] succeeds on a JSON body only and
    [ElementTree.fromstring(response.content)] on an XML body only. *)
Inductive Body : Type :=
| BodyJson (j : Value)
| BodyXml (root : Element)
| BodyOther (raw : string).

(** A [requests.Response]. *)
Record Response : Type := mkResponse {
  ok : bool;
  status_code : Z;
  content : Body
}.

(** What a method of the handler may return or cache. *)
Inductive PyObj : Type :=
| OValue (v : Value)
| OResponse (r : Response)
| OElement (e : Element).

(** Truth value of an object: a [Response] is true when [ok], an
    [Element] when it has children. *)
Definition obj_truthy (o : PyObj) : bool :=
  match o with
  | OValue v => truthy v
  | OResponse r => ok r
  | OElement e => match elem_children e with [] => false | _ => true end
  end.

(** ** Exceptions *)

Inductive Exn : Type :=
| YaTranslateException (args : list Value)
| KeyError (key : string)
| TypeError (msg : string)
| AttributeError (attr : string)
| DecodeError
| TransportError (name : string).

(** [YaTranslateException.error_codes] *)
Definition error_codes : gmap Z string :=
  list_to_map
    [ (400, "Wrong parameter was specified");
      (401, "Invalid API key");
      (402, "Blocked API key");
      (403, "Exceeded the daily limit on the amount of requests");
      (404, "Exceeded the daily limit on the amount of translated text");
      (413, "Exceeded the maximum text size");
      (422, "The text cannot be translated");
      (501, "The specified translation direction is not supported");
      (503, "Server not available") ].

(** [YaTranslateException.__init__(status_code, *args)]: the exception
    carries [(message, status_code, *args)].  The module itself only ever
    passes the status code, so keyword arguments are left out. *)
Definition YaTranslateException__init__ (status_code : Z) (args : list Value)
  : Exn :=
  let message := default "Unknown code" (error_codes !! status_code) in
  YaTranslateException (VStr message :: VInt status_code :: args).

(** ** The world outside the module *)

Inductive Verb : Type := GET | POST.

(** One call of [requests.get] / [requests.post]. *)
Record Request : Type := mkRequest {
  req_verb : Verb;
  req_url : Value;
  req_params : gmap string Value
}.

(** The transport answers a request, given those sent before it, either
    with an exception of its own or with a response.  [sent] and
    [warnings] grow as the module calls [requests] and
    [logger.warning]. *)
Record World : Type := mkWorld {
  server : list Request -> Request -> Exn + Response;
  sent : list Request;
  warnings : list Exn
}.

(** Computations that may raise and that act on the world. *)
Definition M (A : Type) : Type := World -> (Exn + A) * World.

Definition ret {A} (a : A) : M A := fun w => (inr a, w).
Definition raise {A} (e : Exn) : M A := fun w => (inl e, w).
Definition bind {A B} (m : M A) (k : A -> M B) : M B :=
  fun w =>
    match m w with
    | (inl e, w') => (inl e, w')
    | (inr a, w') => k a w'
    end.
Definition lift {A} (r : Exn + A) : M A := fun w => (r, w).
Definition fmapM {A B} (f : A -> B) (m : M A) : M B :=
  bind m (fun a => ret (f a)).

(** [try: body except BaseException as err: handler(err)] *)
Definition catch {A} (body : M A) (handler : Exn -> M A) : M A :=
  fun w =>
    match body w with
    | (inl err, w') => handler err w'
    | (inr a, w') => (inr a, w')
    end.

Notation "'do' x <- m ; k" := (bind m (fun x => k))
  (at level 10, x name, m at level 100, k at level 200).

(** [requests.get(url, params=params)] / [requests.post(...)] *)
Definition http (v : Verb) (url : Value) (params : gmap string Value)
  : M Response :=
  fun w =>
    let rq := mkRequest v url params in
    (server w (sent w) rq, mkWorld (server w) (sent w ++ [rq]) (warnings w)).

(** [logger.warning(err)] *)
Definition logger_warning (err : Exn) : M unit :=
  fun w => (inr tt, mkWorld (server w) (sent w) (warnings w ++ [err])).

(** ** The handler *)

(** The instance attributes of [_YaAPIHandler]. *)
Record Handler : Type := mkHandler {
  _api_key : string;
  _json : string;
  _cache : PyObj;
  _url : string
}.

(** Class attributes. *)
Definition _base_url : string := "".
Definition _endpoints : gmap string string := {[ "langs" := "getLangs" ]}.

(** [_YaAPIHandler.__init__(api_key, xml=False)]; [xml = None] stands
    for a call that leaves the flag out. *)
Definition __init__ (api_key : string) (xml : option bool) : M Handler :=
  let xml := default false xml in
  if negb (str_truthy api_key) then
    raise (YaTranslateException__init__ 401 [])
  else
    ret {| _api_key := api_key;
           _json := if negb xml then ".json" else "";
           _cache := OValue VNone;
           _url := _base_url |}.

(** [k in d] *)
Definition has_key (k : string) (d : gmap string Value) : bool :=
  match d !! k with Some _ => true | None => false end.

(** [self._endpoints[endpoint]] *)
Definition endpoint_path (endpoint : string) : Exn + string :=
  match _endpoints !! endpoint with
  | Some path => inr path
  | None => inl (KeyError endpoint)
  end.

(** [_make_url(endpoint, url=None)] *)
Definition _make_url (self : Handler) (endpoint : string)
    (url : option string) : Exn + string :=
  match url with
  | Some u =>
      if str_truthy u then
        match endpoint_path endpoint with
        | inr path => inr (u ++ path)
        | inl e => inl e
        end
      else
        match endpoint_path endpoint with
        | inr path => inr (_url self ++ path)
        | inl e => inl e
        end
  | None =>
      match endpoint_path endpoint with
      | inr path => inr (_url self ++ path)
      | inl e => inl e
      end
  end.

(** [_form_params( **params)] *)
Definition _form_params (self : Handler) (params : gmap string Value)
  : gmap string Value :=
  let parameters := params in
  let parameters := <["key" := VStr (_api_key self)]> parameters in
  if has_key "callback" parameters && negb (str_truthy (_json self)) then
    delete "callback" parameters
  else parameters.

(** [_make_request(url, post=False, **params)] *)
Definition _make_request (url post : Value) (params : gmap string Value)
  : M Response :=
  do response <- (if truthy post then http POST url params
                  else http GET url params);
  if negb (ok response) then
    raise (YaTranslateException__init__ (status_code response) [])
  else ret response.

(** [ElementTree.fromstring(content)] *)
Definition fromstring (b : Body) : M Element :=
  match b with
  | BodyXml root => ret root
  | _ => raise DecodeError
  end.

(** [response.json()] *)
Definition json (response : Response) : M Value :=
  match content response with
  | BodyJson j => ret j
  | _ => raise DecodeError
  end.

(** [_make_request_xml(url, post=False, **params)] *)
Definition _make_request_xml (url post : Value) (params : gmap string Value)
  : M Element :=
  do response <- catch (_make_request url post params)
                       (fun err => raise err);
  fromstring (content response).

(** [_make_request_json(url, post=False, **params)] *)
Definition _make_request_json (url post : Value) (params : gmap string Value)
  : M Value :=
  catch (do response <- _make_request url post params; json response)
        (fun err => raise err).

(** A call [f( **parameters)] of one of the three request functions,
    whose signature is [(url, post=False, **params)]. *)
Definition call_kw {A} (f : Value -> Value -> gmap string Value -> M A)
    (parameters : gmap string Value) : M A :=
  match parameters !! "url" with
  | None => raise (TypeError "missing 1 required positional argument: 'url'")
  | Some url =>
      f url (default (VBool false) (parameters !! "post"))
        (delete "post" (delete "url" parameters))
  end.

(** [make_combined_request(endpoint, post=False, **params)] *)
Definition make_combined_request (self : Handler) (endpoint : string)
    (post : Value) (params : gmap string Value) : M PyObj :=
  do url <- lift (_make_url self endpoint None);
  let parameters : gmap string Value :=
    params ∪ <["post" := post]> {[ "url" := VStr url ]} in
  if has_key "callback" params then
    fmapM OResponse (call_kw _make_request parameters)
  else if negb (str_truthy (_json self)) then
    fmapM OElement (call_kw _make_request_xml parameters)
  else
    fmapM OValue (call_kw _make_request_json parameters).

(** The assignment [self._cache = value]. *)
Definition set_cache (self : Handler) (value : PyObj) : Handler :=
  {| _api_key := _api_key self; _json := _json self;
     _cache := value; _url := _url self |}.

(** [_get_langs(url, update=False, **params)]; the handler comes back
    with the result because the method may assign [self._cache].  No
    assignment precedes a [raise], so a call that raises leaves the
    handler as it was.  Python binds the names [url] and [update] to the
    formal parameters, so [params] never holds them; it may hold
    [endpoint], which then collides in the call of
    [make_combined_request(endpoint="langs", **parameters)]. *)
Definition _get_langs (self : Handler) (url : string) (update : bool)
    (params : gmap string Value) : M (Handler * PyObj) :=
  let parameters : gmap string Value :=
    _form_params self params ∪ {[ "post" := VBool false ]} in
  if has_key "callback" params then
    do full <- lift (_make_url self "langs" (Some url));
    do response <- _make_request (VStr full)
                     (default (VBool false) (parameters !! "post"))
                     (delete "post" parameters);
    ret (self, OResponse response)
  else if update || negb (obj_truthy (_cache self)) then
    if has_key "endpoint" parameters then
      raise (TypeError "got multiple values for keyword argument 'endpoint'")
    else
      do response <- make_combined_request self "langs"
                       (default (VBool false) (parameters !! "post"))
                       (delete "post" parameters);
      do cache <-
        (if str_truthy (_json self) then ret response
         else
           match response with
           | OElement root =>
               match find root "dirs" with
               | Some dirs =>
                   if obj_truthy (OElement dirs) then ret (OValue (texts dirs))
                   else ret (OValue (texts root))
               | None => ret (OValue (texts root))
               end
           | _ => raise (AttributeError "find")
           end);
      ret (set_cache self cache, cache)
  else ret (self, _cache self).

(** The call [self._get_langs(url, update=True, **params)] made by
    [_ok]: a keyword named [update] collides with the explicit one. *)
Definition probe_fetch (self : Handler) (url : string)
    (params : gmap string Value) : M (Handler * PyObj) :=
  if has_key "update" params then
    raise (TypeError "got multiple values for keyword argument 'update'")
  else _get_langs self url true params.

(** [_ok(url, **params)] *)
Definition _ok (self : Handler) (url : string) (params : gmap string Value)
  : M (Handler * bool) :=
  fun w =>
    match probe_fetch self url params w with
    | (inl err, w') => (do _ <- logger_warning err; ret (self, false)) w'
    | (inr (self', _), w') => (inr (self', true), w')
    end.

(** ** Vocabulary of the statements *)

(** The world after one more request went out. *)
Definition record_request (w : World) (rq : Request) : World :=
  mkWorld (server w) (sent w ++ [rq]) (warnings w).

(** The world after one more warning was logged. *)
Definition record_warning (w : World) (err : Exn) : World :=
  mkWorld (server w) (sent w) (warnings w ++ [err]).

Definition verb_of (post : Value) : Verb :=
  if truthy post then POST else GET.

(** The request that [make_combined_request] sends once the endpoint is
    resolved to [url]: keywords named [url] and [post] take the place of
    the built values, and neither is passed on as a query parameter. *)
Definition combined_request (url : string) (post : Value)
    (params : gmap string Value) : Request :=
  mkRequest (verb_of (default post (params !! "post")))
            (default (VStr url) (params !! "url"))
            (delete "post" (delete "url" params)).

(** The request behind a language-list fetch without callback. *)
Definition langs_request (self : Handler) (params : gmap string Value)
  : Request :=
  let parameters : gmap string Value :=
    _form_params self params ∪ {[ "post" := VBool false ]} in
  combined_request (_url self ++ "getLangs")
                   (default (VBool false) (parameters !! "post"))
                   (delete "post" parameters).

(** What the XML branch of [_get_langs] caches for a decoded tree: the
    texts under the first 'dirs' child when that child has children of its
    own, the texts of the top-level elements otherwise. *)
Definition tree_langs (root : Element) : Value :=
  match find root "dirs" with
  | Some dirs =>
      if obj_truthy (OElement dirs) then texts dirs else texts root
  | None => texts root
  end.

(** What a refresh caches from a response of success status: the decoded
    JSON body in JSON mode, the texts of the decoded tree in XML mode. *)
Definition decoded (self : Handler) (r : Response) : Exn + PyObj :=
  if str_truthy (_json self) then
    match content r with
    | BodyJson j => inr (OValue j)
    | _ => inl DecodeError
    end
  else
    match content r with
    | BodyXml root => inr (OValue (tree_langs root))
    | _ => inl DecodeError
    end.

(** The request behind a language-list fetch with a callback. *)
Definition callback_request (self : Handler) (url : string)
    (params : gmap string Value) : Request :=
  let parameters : gmap string Value :=
    _form_params self params ∪ {[ "post" := VBool false ]} in
  mkRequest (verb_of (default (VBool false) (parameters !! "post")))
            (VStr ((if str_truthy url then url else _url self) ++ "getLangs"))
            (delete "post" parameters).

(** A transport that is down, and one that answers every request with
    the same response. *)
Definition offline : World :=
  mkWorld (fun _ _ => inl (TransportError "ConnectionError")) [] [].
Definition always (r : Response) : World :=
  mkWorld (fun _ _ => inr r) [] [].

(** Handlers as the constructor leaves them, and two decoded trees. *)
Definition json_handler : Handler := mkHandler "123" ".json" (OValue VNone) "".
Definition xml_handler : Handler := mkHandler "123" "" (OValue VNone) "".

Definition dirs_tree : Element :=
  Elem "Langs" None
    [Elem "dirs" None
       [Elem "string" (Some "en-ru") []; Elem "string" (Some "ru-en") []]].
Definition flat_tree : Element :=
  Elem "Langs" None
    [Elem "Item" (Some "en") []; Elem "Item" (Some "ru") [];
     Elem "Item" (Some "de") []].

Definition json_answer (j : Value) : Response := mkResponse true 200 (BodyJson j).
Definition xml_answer (root : Element) : Response :=
  mkResponse true 200 (BodyXml root).

(** A tree whose 'dirs' child is empty, and the answer to a bad key. *)
Definition childless_dirs_tree : Element :=
  Elem "Langs" None [Elem "dirs" None []; Elem "Item" (Some "en") []].
Definition denied : Response :=
  mkResponse false 401 (BodyJson (VDict [("code", VInt 401)])).

(** * Exception construction *)

Lemma error_codes_unknown (code : Z) :
  code ∉ [400; 401; 402; 403; 404; 413; 422; 501; 503] ->
  error_codes !! code = None.
Proof.
  intros Hcode. unfold error_codes.
  apply not_elem_of_list_to_map_1. exact Hcode.
Qed.

(** C2: for every status code the exception is built and carries
    (message, status_code) in that order; the nine codes of the table
    get their message, every other code gets "Unknown code". *)
Theorem exception_message_by_code :
  (forall code args, exists message,
      YaTranslateException__init__ code args
      = YaTranslateException (VStr message :: VInt code :: args)) /\
  YaTranslateException__init__ 400 []
  = YaTranslateException [VStr "Wrong parameter was specified"; VInt 400] /\
  YaTranslateException__init__ 401 []
  = YaTranslateException [VStr "Invalid API key"; VInt 401] /\
  YaTranslateException__init__ 402 []
  = YaTranslateException [VStr "Blocked API key"; VInt 402] /\
  YaTranslateException__init__ 403 []
  = YaTranslateException
      [VStr "Exceeded the daily limit on the amount of requests"; VInt 403] /\
  YaTranslateException__init__ 404 []
  = YaTranslateException
      [VStr "Exceeded the daily limit on the amount of translated text";
       VInt 404] /\
  YaTranslateException__init__ 413 []
  = YaTranslateException [VStr "Exceeded the maximum text size"; VInt 413] /\
  YaTranslateException__init__ 422 []
  = YaTranslateException [VStr "The text cannot be translated"; VInt 422] /\
  YaTranslateException__init__ 501 []
  = YaTranslateException
      [VStr "The specified translation direction is not supported";
       VInt 501] /\
  YaTranslateException__init__ 503 []
  = YaTranslateException [VStr "Server not available"; VInt 503] /\
  (forall code,
      code ∉ [400; 401; 402; 403; 404; 413; 422; 501; 503] ->
      YaTranslateException__init__ code []
      = YaTranslateException [VStr "Unknown code"; VInt code]).
Proof.
  split; [intros code args; eexists; reflexivity|].
  repeat (split; [vm_compute; reflexivity|]).
  intros code Hcode. unfold YaTranslateException__init__.
  rewrite (error_codes_unknown code Hcode). reflexivity.
Qed.

Lemma exception_message_by_code_witness :
  YaTranslateException__init__ 300 []
  = YaTranslateException [VStr "Unknown code"; VInt 300].
Proof.
  apply exception_message_by_code.
  rewrite !elem_of_cons, elem_of_nil. intros H.
  repeat destruct H as [H|H]; try discriminate H; exact H.
Defined.

(** * Construction of the handler *)

Lemma str_truthy_false (s : string) : str_truthy s = false <-> s = "".
Proof.
  unfold str_truthy. destruct (String.eqb_spec s "") as [->|Hne]; simpl.
  - split; reflexivity.
  - split; [discriminate|]. intros ->. contradiction Hne. reflexivity.
Qed.

Lemma str_truthy_true (s : string) : str_truthy s = true <-> s <> "".
Proof.
  rewrite <- str_truthy_false. destruct (str_truthy s); split; congruence.
Qed.

(** C1: an empty key makes the constructor raise the exception of status
    401, "Invalid API key", in a world it has not touched (nothing was
    sent); any other key gives a handler that stores it. *)
Theorem init_checks_api_key :
  (forall xml w,
      __init__ "" xml w
      = (inl (YaTranslateException [VStr "Invalid API key"; VInt 401]), w)) /\
  (forall api_key xml w,
      api_key <> "" ->
      exists self,
        __init__ api_key xml w = (inr self, w) /\ _api_key self = api_key).
Proof.
  split.
  - intros xml w. reflexivity.
  - intros api_key xml w Hkey. apply str_truthy_true in Hkey.
    unfold __init__. rewrite Hkey. simpl.
    eexists. split; reflexivity.
Qed.

Lemma init_checks_api_key_witness :
  "123" <> "" /\
  exists self,
    __init__ "123" None offline = (inr self, offline) /\ _api_key self = "123".
Proof.
  split; [discriminate|].
  apply (proj2 init_checks_api_key "123" None offline). discriminate.
Defined.

(** As C8 reads, a handler built without the flag would be in XML mode,
    with the empty suffix; the default of the constructor is [xml=False],
    which is JSON mode. *)
Lemma init_default_is_json :
  exists self,
    __init__ "123" None offline = (inr self, offline) /\
    _json self = ".json" /\ _json self <> "".
Proof.
  eexists. split; [reflexivity|]. split; [reflexivity|discriminate].
Qed.

(** C8, amended: whenever the constructor returns, the suffix is ".json"
    if the flag is absent or false (JSON mode) and the empty string
    exactly when the flag is given as true (XML mode). *)
Theorem init_format_suffix (api_key : string) (xml : option bool)
    (w w' : World) (self : Handler) :
  __init__ api_key xml w = (inr self, w') ->
  _json self = match xml with Some true => "" | _ => ".json" end.
Proof.
  unfold __init__. destruct (negb (str_truthy api_key)); [discriminate|].
  intros Heq. injection Heq as <- _.
  destruct xml as [[|]|]; reflexivity.
Qed.

Lemma init_format_suffix_witness :
  let self := mkHandler "123" ".json" (OValue VNone) "" in
  __init__ "123" None offline = (inr self, offline) /\ _json self = ".json".
Proof.
  intros self. split; [reflexivity|].
  apply (init_format_suffix "123" None offline offline self). reflexivity.
Defined.

(** * Parameter formation *)

Lemma has_key_true (k : string) (d : gmap string Value) :
  has_key k d = true <-> is_Some (d !! k).
Proof.
  unfold has_key. destruct (d !! k); split; intros H;
    try reflexivity; try discriminate; eauto.
  destruct H as [? H]. discriminate H.
Qed.

Lemma has_key_false (k : string) (d : gmap string Value) :
  has_key k d = false <-> d !! k = None.
Proof.
  unfold has_key. destruct (d !! k); split; intros H;
    try reflexivity; discriminate.
Qed.

Lemma form_params_eq (self : Handler) (params : gmap string Value) :
  _form_params self params
  = if has_key "callback" params && negb (str_truthy (_json self))
    then delete "callback" (<["key" := VStr (_api_key self)]> params)
    else <["key" := VStr (_api_key self)]> params.
Proof.
  unfold _form_params, has_key.
  rewrite lookup_insert_ne by discriminate. reflexivity.
Qed.

Lemma form_params_key (self : Handler) (params : gmap string Value) :
  _form_params self params !! "key" = Some (VStr (_api_key self)).
Proof.
  rewrite form_params_eq.
  destruct (has_key "callback" params && negb (str_truthy (_json self))).
  - rewrite lookup_delete_ne by discriminate. apply lookup_insert_eq.
  - apply lookup_insert_eq.
Qed.

Lemma form_params_other (self : Handler) (params : gmap string Value)
    (k : string) :
  k <> "key" -> k <> "callback" ->
  _form_params self params !! k = params !! k.
Proof.
  intros Hkey Hcb. rewrite form_params_eq.
  destruct (has_key "callback" params && negb (str_truthy (_json self))).
  - rewrite lookup_delete_ne by congruence.
    rewrite lookup_insert_ne by congruence. reflexivity.
  - rewrite lookup_insert_ne by congruence. reflexivity.
Qed.

Lemma form_params_callback_xml (self : Handler) (params : gmap string Value) :
  _json self = "" -> _form_params self params !! "callback" = None.
Proof.
  intros Hxml. rewrite form_params_eq, Hxml. simpl.
  rewrite andb_true_r. destruct (has_key "callback" params) eqn:Hcb.
  - apply lookup_delete_eq.
  - rewrite lookup_insert_ne by discriminate.
    apply has_key_false. exact Hcb.
Qed.

Lemma form_params_callback_json (self : Handler) (params : gmap string Value) :
  _json self <> "" ->
  _form_params self params !! "callback" = params !! "callback".
Proof.
  intros Hjson. apply str_truthy_true in Hjson.
  rewrite form_params_eq, Hjson. simpl. rewrite andb_false_r.
  rewrite lookup_insert_ne by discriminate. reflexivity.
Qed.

(** C4: the formed mapping holds the API key under 'key' (the name is
    reserved: a supplied 'key' gives way to it) and every other supplied
    parameter as it was given; in XML mode it has no 'callback' entry even
    if one was supplied, in JSON mode a supplied 'callback' is kept.  The
    result is a new value: [params] itself is not changed. *)
Theorem form_params_contents (self : Handler) (params : gmap string Value) :
  _form_params self params !! "key" = Some (VStr (_api_key self)) /\
  (forall k, k <> "key" -> k <> "callback" ->
             _form_params self params !! k = params !! k) /\
  (_json self = "" -> _form_params self params !! "callback" = None) /\
  (_json self <> "" ->
   _form_params self params !! "callback" = params !! "callback").
Proof.
  split; [apply form_params_key|].
  split; [intros k; apply form_params_other|].
  split; [apply form_params_callback_xml|apply form_params_callback_json].
Qed.

Lemma form_params_contents_witness :
  let supplied : gmap string Value :=
    {[ "callback" := VStr "show"; "ui" := VStr "en" ]} in
  let xml_handler := mkHandler "123" "" (OValue VNone) "" in
  let json_handler := mkHandler "123" ".json" (OValue VNone) "" in
  _form_params xml_handler supplied !! "ui" = Some (VStr "en") /\
  _form_params xml_handler supplied !! "callback" = None /\
  _form_params json_handler supplied !! "callback" = Some (VStr "show").
Proof.
  intros supplied xml_handler json_handler.
  destruct (form_params_contents xml_handler supplied) as (_ & Hx & Hxcb & _).
  destruct (form_params_contents json_handler supplied) as (_ & _ & _ & Hj).
  split; [|split].
  - rewrite Hx by discriminate. reflexivity.
  - apply Hxcb. reflexivity.
  - rewrite Hj by discriminate. reflexivity.
Defined.

(** * The three request functions *)

Lemma make_request_run (url post : Value) (params : gmap string Value)
    (w : World) :
  _make_request url post params w
  = let rq := mkRequest (verb_of post) url params in
    match server w (sent w) rq with
    | inl e => (inl e, record_request w rq)
    | inr r =>
        if ok r then (inr r, record_request w rq)
        else (inl (YaTranslateException__init__ (status_code r) []),
              record_request w rq)
    end.
Proof.
  unfold _make_request, bind, verb_of, http, record_request.
  destruct (truthy post); simpl;
    (match goal with |- context [server w (sent w) ?rq] =>
       destruct (server w (sent w) rq) as [e|r] end);
    try reflexivity; destruct (ok r); reflexivity.
Qed.

Lemma make_request_xml_run (url post : Value) (params : gmap string Value)
    (w : World) :
  _make_request_xml url post params w
  = match _make_request url post params w with
    | (inl e, w') => (inl e, w')
    | (inr r, w') => fromstring (content r) w'
    end.
Proof.
  unfold _make_request_xml, bind, catch, raise.
  destruct (_make_request url post params w) as [[e|r] w']; reflexivity.
Qed.

Lemma make_request_json_run (url post : Value) (params : gmap string Value)
    (w : World) :
  _make_request_json url post params w
  = match _make_request url post params w with
    | (inl e, w') => (inl e, w')
    | (inr r, w') => json r w'
    end.
Proof.
  unfold _make_request_json, bind, catch, raise.
  destruct (_make_request url post params w) as [[e|r] w']; [reflexivity|].
  destruct (json r w') as [[e|j] w'']; reflexivity.
Qed.

(** C7: when the transport answers with a response whose status is a
    failure, each of the three request functions raises the exception
    carrying that response's status code, whatever the body is (it is
    never decoded); when the status is a success the raw function returns
    the very response. *)
Theorem request_checks_status (url post : Value)
    (params : gmap string Value) (w : World) (r : Response) :
  let rq := mkRequest (verb_of post) url params in
  let failure :=
    YaTranslateException
      [VStr (default "Unknown code" (error_codes !! status_code r));
       VInt (status_code r)] in
  server w (sent w) rq = inr r ->
  (ok r = false ->
   _make_request url post params w = (inl failure, record_request w rq) /\
   _make_request_json url post params w = (inl failure, record_request w rq) /\
   _make_request_xml url post params w = (inl failure, record_request w rq)) /\
  (ok r = true ->
   _make_request url post params w = (inr r, record_request w rq)).
Proof.
  intros rq failure Hanswer. cbv zeta in Hanswer.
  assert (Hraw : _make_request url post params w
                 = if ok r then (inr r, record_request w rq)
                   else (inl failure, record_request w rq)).
  { rewrite make_request_run. cbv zeta. subst rq. rewrite Hanswer.
    reflexivity. }
  split; intros Hok; rewrite Hok in Hraw.
  - rewrite make_request_json_run, make_request_xml_run, Hraw. auto.
  - exact Hraw.
Qed.

Lemma request_checks_status_witness :
  let r := mkResponse false 403 (BodyOther "<html>busy</html>") in
  let rq := mkRequest GET (VStr "getLangs") ∅ in
  server (always r) (sent (always r)) rq = inr r /\
  ok r = false /\
  _make_request_xml (VStr "getLangs") (VBool false) ∅ (always r)
  = (inl (YaTranslateException
            [VStr "Exceeded the daily limit on the amount of requests";
             VInt 403]),
     record_request (always r) rq).
Proof.
  intros r rq. split; [reflexivity|]. split; [reflexivity|].
  apply (request_checks_status (VStr "getLangs") (VBool false) ∅
           (always r) r); reflexivity.
Defined.

(** * Combined request dispatch *)

Lemma call_kw_merged {A} (f : Value -> Value -> gmap string Value -> M A)
    (params : gmap string Value) (url : string) (post : Value) :
  call_kw f (params ∪ <["post" := post]> {[ "url" := VStr url ]})
  = f (default (VStr url) (params !! "url"))
      (default post (params !! "post"))
      (delete "post" (delete "url" params)).
Proof.
  unfold call_kw.
  assert (Hrest : delete "post"
                    (delete "url"
                       (params ∪ <["post" := post]> {[ "url" := VStr url ]}))
                  = delete "post" (delete "url" params)).
  { apply map_eq. intros k.
    destruct (decide (k = "post")) as [->|Hpost].
    { rewrite !lookup_delete_eq. reflexivity. }
    rewrite !(lookup_delete_ne _ "post") by congruence.
    destruct (decide (k = "url")) as [->|Hurl].
    { rewrite !lookup_delete_eq. reflexivity. }
    rewrite !(lookup_delete_ne _ "url") by congruence.
    apply lookup_union_l.
    rewrite lookup_insert_ne by congruence.
    apply lookup_singleton_ne. congruence. }
  rewrite Hrest, !lookup_union.
  rewrite lookup_insert_eq.
  rewrite lookup_insert_ne by discriminate.
  rewrite lookup_singleton_eq.
  destruct (params !! "url"), (params !! "post"); reflexivity.
Qed.

(** C6: for every endpoint name that resolves to a URL (an unknown name
    raises the lookup error while the URL is built) and every set of
    keywords, the dispatch sends one request and, on an answer of success
    status, takes exactly one of three paths: with a 'callback' keyword it
    returns the server's raw response, whatever the format and the body;
    otherwise, in XML mode, the tree decoded from the body; otherwise the
    JSON value decoded from the body.  On the last two paths a body that
    does not decode raises the decoder's error; a failure status raises
    the typed exception and a transport exception comes out as it is, on
    all three. *)
Theorem combined_request_dispatch (self : Handler) (endpoint : string)
    (post : Value) (params : gmap string Value) (w : World) (url : string) :
  _make_url self endpoint None = inr url ->
  make_combined_request self endpoint post params w
  = (match server w (sent w) (combined_request url post params) with
     | inl e => inl e
     | inr r =>
         if ok r then
           if has_key "callback" params then inr (OResponse r)
           else if negb (str_truthy (_json self)) then
             match content r with
             | BodyXml root => inr (OElement root)
             | _ => inl DecodeError
             end
           else
             match content r with
             | BodyJson j => inr (OValue j)
             | _ => inl DecodeError
             end
         else inl (YaTranslateException__init__ (status_code r) [])
     end,
     record_request w (combined_request url post params)).
Proof.
  intros Hurl. unfold make_combined_request, bind at 1, lift.
  rewrite Hurl. cbv zeta. rewrite !call_kw_merged.
  unfold combined_request, fmapM, bind.
  destruct (has_key "callback" params);
    [|destruct (negb (str_truthy (_json self)))].
  - rewrite make_request_run. cbv zeta.
    match goal with |- context [server w (sent w) ?rq] =>
      destruct (server w (sent w) rq) as [e|r] end; [reflexivity|].
    destruct (ok r); reflexivity.
  - rewrite make_request_xml_run, make_request_run. cbv zeta.
    match goal with |- context [server w (sent w) ?rq] =>
      destruct (server w (sent w) rq) as [e|r] end; [reflexivity|].
    destruct (ok r); [|reflexivity].
    unfold fromstring. destruct (content r); reflexivity.
  - rewrite make_request_json_run, make_request_run. cbv zeta.
    match goal with |- context [server w (sent w) ?rq] =>
      destruct (server w (sent w) rq) as [e|r] end; [reflexivity|].
    destruct (ok r); [|reflexivity].
    unfold json. destruct (content r); reflexivity.
Qed.

Lemma combined_request_dispatch_witness :
  let jsonp : gmap string Value := {[ "callback" := VStr "show" ]} in
  let wx := always (xml_answer dirs_tree) in
  let wj := always (json_answer (VList [VStr "en-ru"])) in
  _make_url xml_handler "langs" None = inr "getLangs" /\
  make_combined_request xml_handler "langs" (VBool false) jsonp wx
  = (inr (OResponse (xml_answer dirs_tree)),
     record_request wx (combined_request "getLangs" (VBool false) jsonp)) /\
  make_combined_request xml_handler "langs" (VBool false) ∅ wx
  = (inr (OElement dirs_tree),
     record_request wx (combined_request "getLangs" (VBool false) ∅)) /\
  make_combined_request json_handler "langs" (VBool false) ∅ wj
  = (inr (OValue (VList [VStr "en-ru"])),
     record_request wj (combined_request "getLangs" (VBool false) ∅)).
Proof.
  intros jsonp wx wj. split; [reflexivity|]. split; [|split].
  - exact (combined_request_dispatch xml_handler "langs" (VBool false) jsonp
             wx "getLangs" eq_refl).
  - exact (combined_request_dispatch xml_handler "langs" (VBool false) ∅
             wx "getLangs" eq_refl).
  - exact (combined_request_dispatch json_handler "langs" (VBool false) ∅
             wj "getLangs" eq_refl).
Defined.

(** * Language-list retrieval *)

Lemma form_params_no_callback (self : Handler) (params : gmap string Value) :
  params !! "callback" = None ->
  _form_params self params !! "callback" = None.
Proof.
  intros Hcb. rewrite form_params_eq.
  apply has_key_false in Hcb. rewrite Hcb. simpl.
  rewrite lookup_insert_ne by discriminate.
  apply has_key_false. exact Hcb.
Qed.

Lemma make_url_langs (self : Handler) :
  _make_url self "langs" None = inr (_url self ++ "getLangs").
Proof. reflexivity. Qed.

(** The path taken by a combined request to the 'langs' endpoint. *)
Lemma combined_langs_paths (self : Handler) (post : Value)
    (params : gmap string Value) (w : World) :
  make_combined_request self "langs" post params w
  = let url' := default (VStr (_url self ++ "getLangs")) (params !! "url") in
    let post' := default post (params !! "post") in
    let params' := delete "post" (delete "url" params) in
    if has_key "callback" params then
      fmapM OResponse (_make_request url' post' params') w
    else if negb (str_truthy (_json self)) then
      fmapM OElement (_make_request_xml url' post' params') w
    else
      fmapM OValue (_make_request_json url' post' params') w.
Proof.
  unfold make_combined_request, bind at 1, lift.
  rewrite make_url_langs. cbv zeta. rewrite !call_kw_merged.
  destruct (has_key "callback" params); [reflexivity|].
  destruct (negb (str_truthy (_json self))); reflexivity.
Qed.

(** A refresh: one request goes out, and a response of success status
    that decodes is cached and returned. *)
Lemma get_langs_refresh (self : Handler) (url : string) (update : bool)
    (params : gmap string Value) (w : World) :
  params !! "callback" = None ->
  params !! "endpoint" = None ->
  update || negb (obj_truthy (_cache self)) = true ->
  _get_langs self url update params w
  = let rq := langs_request self params in
    let w' := record_request w rq in
    match server w (sent w) rq with
    | inl e => (inl e, w')
    | inr r =>
        if ok r then
          match decoded self r with
          | inl e => (inl e, w')
          | inr cache => (inr (set_cache self cache, cache), w')
          end
        else (inl (YaTranslateException__init__ (status_code r) []), w')
    end.
Proof.
  intros Hcb Hep Hrefresh. unfold _get_langs.
  apply has_key_false in Hcb as Hcb'. rewrite Hcb', Hrefresh.
  assert (Hep' : has_key "endpoint"
                   (_form_params self params ∪ {[ "post" := VBool false ]})
                 = false).
  { apply has_key_false. rewrite lookup_union_l.
    - rewrite form_params_other by discriminate. exact Hep.
    - apply lookup_singleton_ne. discriminate. }
  rewrite Hep'. unfold bind at 1.
  rewrite combined_langs_paths.
  assert (Hcb2 : has_key "callback"
                   (delete "post"
                      (_form_params self params ∪ {[ "post" := VBool false ]}))
                 = false).
  { apply has_key_false. rewrite lookup_delete_ne by discriminate.
    rewrite lookup_union_l.
    - apply form_params_no_callback. exact Hcb.
    - apply lookup_singleton_ne. discriminate. }
  cbv zeta. rewrite Hcb2.
  unfold langs_request, combined_request, decoded, fmapM, bind.
  cbv zeta.
  destruct (str_truthy (_json self)) eqn:Hjson; simpl negb; cbv iota.
  - rewrite make_request_json_run, make_request_run. cbv zeta.
    match goal with |- context [server w (sent w) ?rq] =>
      destruct (server w (sent w) rq) as [e|r] end; [reflexivity|].
    destruct (ok r); [|reflexivity].
    unfold json. destruct (content r); reflexivity.
  - rewrite make_request_xml_run, make_request_run. cbv zeta.
    match goal with |- context [server w (sent w) ?rq] =>
      destruct (server w (sent w) rq) as [e|r] end; [reflexivity|].
    destruct (ok r); [|reflexivity].
    unfold fromstring. destruct (content r) as [j|root|raw];
      try reflexivity.
    unfold tree_langs, ret. destruct (find root "dirs") as [dirs|];
      [|reflexivity].
    destruct (obj_truthy (OElement dirs)); reflexivity.
Qed.

Lemma get_langs_collision (self : Handler) (url : string) (update : bool)
    (params : gmap string Value) (w : World) :
  params !! "callback" = None ->
  is_Some (params !! "endpoint") ->
  update || negb (obj_truthy (_cache self)) = true ->
  _get_langs self url update params w
  = (inl (TypeError "got multiple values for keyword argument 'endpoint'"),
     w).
Proof.
  intros Hcb Hep Hrefresh. unfold _get_langs.
  apply has_key_false in Hcb. rewrite Hcb, Hrefresh.
  assert (Hep' : has_key "endpoint"
                   (_form_params self params ∪ {[ "post" := VBool false ]})
                 = true).
  { apply has_key_true. rewrite lookup_union_l.
    - rewrite form_params_other by discriminate. exact Hep.
    - apply lookup_singleton_ne. discriminate. }
  rewrite Hep'. reflexivity.
Qed.

(** A cache hit: nothing is sent, the cached object comes back. *)
Lemma get_langs_hit (self : Handler) (url : string)
    (params : gmap string Value) (w : World) :
  params !! "callback" = None ->
  obj_truthy (_cache self) = true ->
  _get_langs self url false params w = (inr (self, _cache self), w).
Proof.
  intros Hcb Hcache. unfold _get_langs.
  apply has_key_false in Hcb. rewrite Hcb, Hcache. reflexivity.
Qed.

(** The callback path: one request goes out, the cache is left alone. *)
Lemma get_langs_callback (self : Handler) (url : string) (update : bool)
    (params : gmap string Value) (w : World) :
  is_Some (params !! "callback") ->
  _get_langs self url update params w
  = let rq := callback_request self url params in
    let w' := record_request w rq in
    match server w (sent w) rq with
    | inl e => (inl e, w')
    | inr r =>
        if ok r then (inr (self, OResponse r), w')
        else (inl (YaTranslateException__init__ (status_code r) []), w')
    end.
Proof.
  intros Hcb. unfold _get_langs.
  apply has_key_true in Hcb. rewrite Hcb.
  unfold bind at 1, lift.
  assert (Hurl : _make_url self "langs" (Some url)
                 = inr ((if str_truthy url then url else _url self)
                        ++ "getLangs")).
  { unfold _make_url. destruct (str_truthy url); reflexivity. }
  rewrite Hurl. unfold bind. rewrite make_request_run.
  unfold callback_request. cbv zeta.
  match goal with |- context [server w (sent w) ?rq] =>
    destruct (server w (sent w) rq) as [e|r] end; [reflexivity|].
  destruct (ok r); reflexivity.
Qed.

(** After a fetch without callback that returned, the value returned is
    the one in the cache, and nothing else of the handler has changed. *)
Lemma get_langs_returns_cache (self self1 : Handler) (url : string)
    (update : bool) (params : gmap string Value) (w w1 : World) (v : PyObj) :
  params !! "callback" = None ->
  _get_langs self url update params w = (inr (self1, v), w1) ->
  _cache self1 = v /\ _json self1 = _json self /\ _url self1 = _url self /\
  _api_key self1 = _api_key self.
Proof.
  intros Hcb Hrun.
  destruct (update || negb (obj_truthy (_cache self))) eqn:Hrefresh.
  - destruct (params !! "endpoint") as [x|] eqn:Hep.
    + rewrite get_langs_collision in Hrun by eauto. discriminate Hrun.
    + rewrite get_langs_refresh in Hrun by assumption.
      cbv zeta in Hrun.
      destruct (server w (sent w) (langs_request self params)) as [e|r];
        [discriminate Hrun|].
      destruct (ok r); [|discriminate Hrun].
      destruct (decoded self r) as [e|cache]; [discriminate Hrun|].
      injection Hrun as <- <- _. auto.
  - apply orb_false_elim in Hrefresh as [-> Hcache].
    apply negb_false_iff in Hcache.
    rewrite get_langs_hit in Hrun by assumption.
    injection Hrun as <- <- _. auto.
Qed.

(** A fetch leaves the transport and the log of warnings alone and sends
    at most one request. *)
Lemma get_langs_world (self : Handler) (url : string) (update : bool)
    (params : gmap string Value) (w : World) :
  let w' := snd (_get_langs self url update params w) in
  w' = w \/ exists rq, w' = record_request w rq.
Proof.
  cbv zeta.
  destruct (params !! "callback") as [cb|] eqn:Hcb.
  { right. exists (callback_request self url params).
    rewrite get_langs_callback by eauto. cbv zeta.
    destruct (server w (sent w) (callback_request self url params)) as [e|r];
      [reflexivity|].
    destruct (ok r); reflexivity. }
  destruct (update || negb (obj_truthy (_cache self))) eqn:Hrefresh.
  - destruct (params !! "endpoint") as [x|] eqn:Hep.
    + left. rewrite get_langs_collision by eauto. reflexivity.
    + right. exists (langs_request self params).
      rewrite get_langs_refresh by assumption. cbv zeta.
      destruct (server w (sent w) (langs_request self params)) as [e|r];
        [reflexivity|].
      destruct (ok r); [|reflexivity].
      destruct (decoded self r); reflexivity.
  - left. apply orb_false_elim in Hrefresh as [-> Hcache].
    apply negb_false_iff in Hcache.
    rewrite get_langs_hit by assumption. reflexivity.
Qed.

(** As C3 reads, any successful fetch would be served from the cache
    afterwards.  A fetch that decodes to the empty list is cached, but the
    next call without update and without callback sends a request of its
    own. *)
Lemma empty_result_is_fetched_again :
  let w := always (json_answer (VList [])) in
  let self1 := set_cache json_handler (OValue (VList [])) in
  let w1 := record_request w (langs_request json_handler ∅) in
  let w2 := record_request w1 (langs_request self1 ∅) in
  _get_langs json_handler "" false ∅ w = (inr (self1, OValue (VList [])), w1) /\
  _get_langs self1 "" false ∅ w1 = (inr (self1, OValue (VList [])), w2) /\
  length (sent w1) = 1%nat /\ length (sent w2) = 2%nat.
Proof.
  cbv zeta. repeat split; vm_compute; reflexivity.
Qed.

(** C3, amended: in JSON mode, after a fetch without callback that
    returned a truthy value (a non-empty list or mapping), every later call
    without update and without callback returns that very value and leaves
    the world as it was, so nothing is sent; a later call with update (no
    callback, no keyword named endpoint) sends exactly one request, and
    when the answer has a success status and a JSON body it returns and
    caches the decoded body. *)
Theorem cache_serves_truthy_result (self self1 : Handler) (url : string)
    (update : bool) (params : gmap string Value) (w w1 : World) (v : PyObj) :
  _json self <> "" ->
  params !! "callback" = None ->
  _get_langs self url update params w = (inr (self1, v), w1) ->
  obj_truthy v = true ->
  (forall url' (params' : gmap string Value),
      params' !! "callback" = None ->
      _get_langs self1 url' false params' w1 = (inr (self1, v), w1)) /\
  (forall url' (params' : gmap string Value),
      params' !! "callback" = None ->
      params' !! "endpoint" = None ->
      sent (snd (_get_langs self1 url' true params' w1))
      = (sent w1 ++ [langs_request self1 params'])%list /\
      forall r j,
        server w1 (sent w1) (langs_request self1 params') = inr r ->
        ok r = true ->
        content r = BodyJson j ->
        _get_langs self1 url' true params' w1
        = (inr (set_cache self1 (OValue j), OValue j),
           record_request w1 (langs_request self1 params'))).
Proof.
  intros Hjson Hcb Hrun Htruthy.
  destruct (get_langs_returns_cache _ _ _ _ _ _ _ _ Hcb Hrun)
    as (Hcache & Hjson1 & _).
  split.
  - intros url' params' Hcb'.
    rewrite get_langs_hit by (rewrite ?Hcache; assumption).
    rewrite Hcache. reflexivity.
  - intros url' params' Hcb' Hep'.
    rewrite get_langs_refresh by (assumption || reflexivity). cbv zeta.
    split.
    + destruct (server w1 (sent w1) (langs_request self1 params')) as [e|r];
        [reflexivity|].
      destruct (ok r); [|reflexivity].
      destruct (decoded self1 r); reflexivity.
    + intros r j Hanswer Hok Hbody.
      rewrite Hanswer, Hok. unfold decoded.
      rewrite Hjson1. apply str_truthy_true in Hjson. rewrite Hjson, Hbody.
      reflexivity.
Qed.

Lemma cache_serves_truthy_result_witness :
  let w := always (json_answer (VList [VStr "en-ru"])) in
  let self1 := set_cache json_handler (OValue (VList [VStr "en-ru"])) in
  let w1 := record_request w (langs_request json_handler ∅) in
  _get_langs json_handler "" false ∅ w
  = (inr (self1, OValue (VList [VStr "en-ru"])), w1) /\
  _get_langs self1 "" false ∅ w1
  = (inr (self1, OValue (VList [VStr "en-ru"])), w1).
Proof.
  intros w self1 w1.
  assert (Hfirst : _get_langs json_handler "" false ∅ w
                   = (inr (self1, OValue (VList [VStr "en-ru"])), w1))
    by (vm_compute; reflexivity).
  split; [exact Hfirst|].
  apply (proj1 (cache_serves_truthy_result json_handler self1 "" false ∅ w w1
                  (OValue (VList [VStr "en-ru"]))
                  ltac:(discriminate) (lookup_empty _) Hfirst eq_refl)
           "" ∅ (lookup_empty _)).
Defined.

(** C10: emptiness of the cache is tested by truth value.  After a fetch
    without callback that returned a falsy value (the empty list and the
    empty mapping among them), the value is in the cache, and yet every
    later call without update (and without a keyword named endpoint) sends
    a request of its own, the language-list request when there is no
    callback. *)
Theorem falsy_result_is_not_served (self self1 : Handler) (url : string)
    (update : bool) (params : gmap string Value) (w w1 : World) (v : PyObj) :
  params !! "callback" = None ->
  _get_langs self url update params w = (inr (self1, v), w1) ->
  obj_truthy v = false ->
  _cache self1 = v /\
  forall url' (params' : gmap string Value),
    params' !! "endpoint" = None ->
    exists rq,
      sent (snd (_get_langs self1 url' false params' w1))
      = (sent w1 ++ [rq])%list /\
      (params' !! "callback" = None -> rq = langs_request self1 params').
Proof.
  intros Hcb Hrun Hfalsy.
  destruct (get_langs_returns_cache _ _ _ _ _ _ _ _ Hcb Hrun)
    as (Hcache & _).
  split; [exact Hcache|].
  intros url' params' Hep'.
  destruct (params' !! "callback") as [cb|] eqn:Hcb'.
  - exists (callback_request self1 url' params').
    split; [|discriminate].
    rewrite get_langs_callback by eauto. cbv zeta.
    destruct (server w1 (sent w1) (callback_request self1 url' params'))
      as [e|r]; [reflexivity|].
    destruct (ok r); reflexivity.
  - exists (langs_request self1 params').
    split; [|reflexivity].
    rewrite get_langs_refresh
      by (try assumption; rewrite Hcache, Hfalsy; reflexivity).
    cbv zeta.
    destruct (server w1 (sent w1) (langs_request self1 params')) as [e|r];
      [reflexivity|].
    destruct (ok r); [|reflexivity].
    destruct (decoded self1 r); reflexivity.
Qed.

Lemma falsy_result_is_not_served_witness :
  let w := always (json_answer (VDict [])) in
  let self1 := set_cache json_handler (OValue (VDict [])) in
  let w1 := record_request w (langs_request json_handler ∅) in
  _get_langs json_handler "" false ∅ w = (inr (self1, OValue (VDict [])), w1) /\
  sent (snd (_get_langs self1 "" false ∅ w1))
  = (sent w1 ++ [langs_request self1 ∅])%list.
Proof.
  intros w self1 w1.
  assert (Hfirst : _get_langs json_handler "" false ∅ w
                   = (inr (self1, OValue (VDict [])), w1))
    by (vm_compute; reflexivity).
  split; [exact Hfirst|].
  destruct (proj2 (falsy_result_is_not_served json_handler self1 "" false ∅
                     w w1 (OValue (VDict [])) (lookup_empty _) Hfirst
                     eq_refl)
              "" ∅ (lookup_empty _)) as (rq & Hsent & Hrq).
  rewrite Hsent, (Hrq (lookup_empty _)). reflexivity.
Defined.

Lemma texts_of_children (e : Element) (ts : list string) :
  map elem_text (elem_children e) = map Some ts ->
  texts e = VList (map VStr ts).
Proof.
  unfold texts. intros Hts. f_equal.
  assert (Hmap : map text_value (elem_children e)
                 = map (fun t : option string =>
                          match t with Some s => VStr s | None => VNone end)
                       (map elem_text (elem_children e))).
  { rewrite map_map. reflexivity. }
  rewrite Hmap, Hts, map_map. reflexivity.
Qed.

(** In XML mode a refresh answered with a tree caches and returns what
    [tree_langs] reads off the tree. *)
Lemma get_langs_xml (self : Handler) (url : string) (update : bool)
    (params : gmap string Value) (w : World) (r : Response) (root : Element) :
  _json self = "" ->
  params !! "callback" = None ->
  params !! "endpoint" = None ->
  update || negb (obj_truthy (_cache self)) = true ->
  server w (sent w) (langs_request self params) = inr r ->
  ok r = true ->
  content r = BodyXml root ->
  _get_langs self url update params w
  = (inr (set_cache self (OValue (tree_langs root)),
          OValue (tree_langs root)),
     record_request w (langs_request self params)).
Proof.
  intros Hxml Hcb Hep Hrefresh Hanswer Hok Hbody.
  rewrite get_langs_refresh by assumption. cbv zeta.
  rewrite Hanswer, Hok. unfold decoded. rewrite Hxml, Hbody. reflexivity.
Qed.

(** C5: in XML mode, a fetch that goes to the network (update set or
    cache empty, no callback) and is answered with a tree returns
    ["en-ru", "ru-en"] when the tree has a 'dirs' child whose children
    carry those two texts, and ["en", "ru", "de"] when it has no 'dirs'
    child and its top-level elements carry those three texts. *)
Theorem xml_langs_from_tree (self : Handler) (url : string) (update : bool)
    (params : gmap string Value) (w : World) (r : Response) (root : Element) :
  _json self = "" ->
  params !! "callback" = None ->
  params !! "endpoint" = None ->
  update || negb (obj_truthy (_cache self)) = true ->
  server w (sent w) (langs_request self params) = inr r ->
  ok r = true ->
  content r = BodyXml root ->
  let fetched (langs : Value) :=
    _get_langs self url update params w
    = (inr (set_cache self (OValue langs), OValue langs),
       record_request w (langs_request self params)) in
  (forall dirs,
      find root "dirs" = Some dirs ->
      map elem_text (elem_children dirs) = [Some "en-ru"; Some "ru-en"] ->
      fetched (VList [VStr "en-ru"; VStr "ru-en"])) /\
  (find root "dirs" = None ->
   map elem_text (elem_children root) = [Some "en"; Some "ru"; Some "de"] ->
   fetched (VList [VStr "en"; VStr "ru"; VStr "de"])).
Proof.
  intros Hxml Hcb Hep Hrefresh Hanswer Hok Hbody. cbv zeta.
  rewrite (get_langs_xml self url update params w r root) by assumption.
  unfold tree_langs. split.
  - intros dirs Hfind Htexts. rewrite Hfind.
    assert (Hkids : obj_truthy (OElement dirs) = true).
    { simpl. destruct (elem_children dirs); [discriminate Htexts|reflexivity]. }
    rewrite Hkids.
    rewrite (texts_of_children dirs ["en-ru"; "ru-en"] Htexts).
    reflexivity.
  - intros Hfind Htexts. rewrite Hfind.
    rewrite (texts_of_children root ["en"; "ru"; "de"] Htexts).
    reflexivity.
Qed.

Lemma xml_langs_from_tree_witness :
  _get_langs xml_handler "" false ∅ (always (xml_answer dirs_tree))
  = (inr (set_cache xml_handler (OValue (VList [VStr "en-ru"; VStr "ru-en"])),
          OValue (VList [VStr "en-ru"; VStr "ru-en"])),
     record_request (always (xml_answer dirs_tree))
                    (langs_request xml_handler ∅)) /\
  _get_langs xml_handler "" false ∅ (always (xml_answer flat_tree))
  = (inr (set_cache xml_handler
            (OValue (VList [VStr "en"; VStr "ru"; VStr "de"])),
          OValue (VList [VStr "en"; VStr "ru"; VStr "de"])),
     record_request (always (xml_answer flat_tree))
                    (langs_request xml_handler ∅)).
Proof.
  split.
  - apply (proj1 (xml_langs_from_tree xml_handler "" false ∅
                    (always (xml_answer dirs_tree)) (xml_answer dirs_tree)
                    dirs_tree eq_refl (lookup_empty _) (lookup_empty _)
                    eq_refl eq_refl eq_refl eq_refl)
             (Elem "dirs" None
                [Elem "string" (Some "en-ru") [];
                 Elem "string" (Some "ru-en") []])
             eq_refl eq_refl).
  - apply (proj2 (xml_langs_from_tree xml_handler "" false ∅
                    (always (xml_answer flat_tree)) (xml_answer flat_tree)
                    flat_tree eq_refl (lookup_empty _) (lookup_empty _)
                    eq_refl eq_refl eq_refl eq_refl)
             eq_refl eq_refl).
Defined.

(** * Key validation probe *)

Lemma probe_fetch_world (self : Handler) (url : string)
    (params : gmap string Value) (w : World) :
  warnings (snd (probe_fetch self url params w)) = warnings w.
Proof.
  unfold probe_fetch. destruct (has_key "update" params); [reflexivity|].
  destruct (get_langs_world self url true params w) as [->|[rq ->]];
    reflexivity.
Qed.

(** C9: the probe makes the fetch with update set.  If the fetch raises,
    whatever the exception, the probe logs it as one warning and returns
    false; if the fetch returns, the probe returns true and logs nothing;
    in both cases the probe itself returns, so no exception escapes. *)
Theorem ok_reports_fetch (self : Handler) (url : string)
    (params : gmap string Value) (w : World) :
  (params !! "update" = None ->
   probe_fetch self url params = _get_langs self url true params) /\
  (forall err w',
      probe_fetch self url params w = (inl err, w') ->
      _ok self url params w = (inr (self, false), record_warning w' err) /\
      warnings (record_warning w' err) = (warnings w ++ [err])%list) /\
  (forall self' langs w',
      probe_fetch self url params w = (inr (self', langs), w') ->
      _ok self url params w = (inr (self', true), w') /\
      warnings w' = warnings w) /\
  (exists self' answer w',
      _ok self url params w = (inr (self', answer), w')).
Proof.
  split; [|split; [|split]].
  - intros Hupdate. unfold probe_fetch.
    apply has_key_false in Hupdate. rewrite Hupdate. reflexivity.
  - intros err w' Hfetch. unfold _ok. rewrite Hfetch. split; [reflexivity|].
    simpl. f_equal.
    change w' with (snd (@inl Exn (Handler * PyObj) err, w')).
    rewrite <- Hfetch. apply probe_fetch_world.
  - intros self' langs w' Hfetch. unfold _ok. rewrite Hfetch.
    split; [reflexivity|].
    change w' with (snd (@inr Exn (Handler * PyObj) (self', langs), w')).
    rewrite <- Hfetch. apply probe_fetch_world.
  - unfold _ok.
    destruct (probe_fetch self url params w) as [[err|[self' langs]] w'];
      eexists _, _, _; reflexivity.
Qed.

Lemma ok_reports_fetch_witness :
  probe_fetch json_handler "" ∅ offline
  = (inl (TransportError "ConnectionError"),
     record_request offline (langs_request json_handler ∅)) /\
  _ok json_handler "" ∅ offline
  = (inr (json_handler, false),
     record_warning (record_request offline (langs_request json_handler ∅))
                    (TransportError "ConnectionError")).
Proof.
  assert (Hfetch : probe_fetch json_handler "" ∅ offline
                   = (inl (TransportError "ConnectionError"),
                      record_request offline (langs_request json_handler ∅)))
    by (vm_compute; reflexivity).
  split; [exact Hfetch|].
  destruct (ok_reports_fetch json_handler "" ∅ offline) as (_ & Hraise & _).
  apply (Hraise _ _ Hfetch).
Defined.

(** * URL construction *)

Lemma endpoint_path_unknown (endpoint : string) :
  endpoint <> "langs" -> endpoint_path endpoint = inl (KeyError endpoint).
Proof.
  intros Hne. unfold endpoint_path, _endpoints.
  rewrite lookup_singleton_ne by congruence. reflexivity.
Qed.

(** X1: the only endpoint of the base class is 'langs'.  Any other name
    raises [KeyError] of that name, also when an override URL is given;
    for 'langs' the path "getLangs" is appended to the override URL when
    it is a non-empty string and to the URL of the handler otherwise. *)
Theorem make_url_resolves (self : Handler) (endpoint : string)
    (url : option string) :
  (endpoint <> "langs" ->
   _make_url self endpoint url = inl (KeyError endpoint)) /\
  (endpoint = "langs" ->
   _make_url self endpoint url
   = inr (match url with
          | Some u => if String.eqb u "" then _url self else u
          | None => _url self
          end ++ "getLangs")).
Proof.
  split.
  - intros Hne. unfold _make_url.
    rewrite (endpoint_path_unknown endpoint Hne).
    destruct url as [u|]; [destruct (str_truthy u)|]; reflexivity.
  - intros ->. unfold _make_url, str_truthy.
    destruct url as [u|]; [destruct (String.eqb u "")|]; reflexivity.
Qed.

Lemma make_url_resolves_witness :
  _make_url json_handler "" (Some "http://url.../") = inl (KeyError "") /\
  _make_url json_handler "langs" (Some "")
  = inr (_url json_handler ++ "getLangs").
Proof.
  split.
  - apply (proj1 (make_url_resolves json_handler "" (Some "http://url.../"))).
    discriminate.
  - apply (proj2 (make_url_resolves json_handler "langs" (Some ""))).
    reflexivity.
Defined.

(** * More on the combined request *)

(** X2: a combined request to an unknown endpoint raises [KeyError] and
    sends nothing. *)
Theorem combined_request_unknown_endpoint (self : Handler)
    (endpoint : string) (post : Value) (params : gmap string Value)
    (w : World) :
  endpoint <> "langs" ->
  make_combined_request self endpoint post params w
  = (inl (KeyError endpoint), w).
Proof.
  intros Hne. unfold make_combined_request, bind, lift, _make_url.
  rewrite (endpoint_path_unknown endpoint Hne). reflexivity.
Qed.

Lemma combined_request_unknown_endpoint_witness :
  make_combined_request json_handler "translate" (VBool false) ∅ offline
  = (inl (KeyError "translate"), offline).
Proof.
  apply (combined_request_unknown_endpoint json_handler "translate").
  discriminate.
Defined.

Lemma make_request_world (url post : Value) (params : gmap string Value)
    (w : World) :
  snd (_make_request url post params w)
  = record_request w (mkRequest (verb_of post) url params).
Proof.
  rewrite make_request_run. cbv zeta.
  destruct (server w (sent w) (mkRequest (verb_of post) url params)) as [e|r];
    [reflexivity|].
  destruct (ok r); reflexivity.
Qed.

Lemma make_request_json_world (url post : Value)
    (params : gmap string Value) (w : World) :
  snd (_make_request_json url post params w)
  = record_request w (mkRequest (verb_of post) url params).
Proof.
  rewrite make_request_json_run, <- make_request_world.
  destruct (_make_request url post params w) as [[e|r] w']; [reflexivity|].
  unfold json. destruct (content r); reflexivity.
Qed.

Lemma make_request_xml_world (url post : Value)
    (params : gmap string Value) (w : World) :
  snd (_make_request_xml url post params w)
  = record_request w (mkRequest (verb_of post) url params).
Proof.
  rewrite make_request_xml_run, <- make_request_world.
  destruct (_make_request url post params w) as [[e|r] w']; [reflexivity|].
  unfold fromstring. destruct (content r); reflexivity.
Qed.

Lemma fmapM_world {A B} (f : A -> B) (m : M A) (w : World) :
  snd (fmapM f m w) = snd (m w).
Proof.
  unfold fmapM, bind, ret. destruct (m w) as [[e|a] w']; reflexivity.
Qed.

(** X3: a combined request to 'langs' sends exactly one request, whatever
    comes of it (transport failure, bad status, undecodable body or
    success).  A keyword [url] replaces the URL of the endpoint, a keyword
    [post] the verb flag, and every other keyword goes out unchanged as a
    query parameter (a 'callback' too, also in XML mode). *)
Theorem combined_request_sends_one (self : Handler) (post : Value)
    (params : gmap string Value) (w : World) :
  snd (make_combined_request self "langs" post params w)
  = record_request w
      (mkRequest (verb_of (default post (params !! "post")))
                 (default (VStr (_url self ++ "getLangs")) (params !! "url"))
                 (delete "post" (delete "url" params))) /\
  (forall k, k <> "url" -> k <> "post" ->
             delete "post" (delete "url" params) !! k = params !! k).
Proof.
  split.
  - rewrite combined_langs_paths. cbv zeta.
    destruct (has_key "callback" params);
      [|destruct (negb (str_truthy (_json self)))];
      rewrite fmapM_world.
    + apply make_request_world.
    + apply make_request_xml_world.
    + apply make_request_json_world.
  - intros k Hurl Hpost.
    rewrite lookup_delete_ne by congruence.
    rewrite lookup_delete_ne by congruence. reflexivity.
Qed.

Lemma combined_request_sends_one_witness :
  let params : gmap string Value :=
    {[ "ui" := VStr "en"; "url" := VStr "http://other/" ]} in
  snd (make_combined_request xml_handler "langs" (VBool false) params offline)
  = record_request offline
      (mkRequest GET (VStr "http://other/") {[ "ui" := VStr "en" ]}) /\
  delete "post" (delete "url" params) !! "ui" = params !! "ui".
Proof.
  intros params.
  destruct (combined_request_sends_one xml_handler (VBool false) params
              offline) as [Hsent Hkeep].
  split.
  - rewrite Hsent. vm_compute. reflexivity.
  - apply Hkeep; discriminate.
Defined.

(** * More on parameter formation *)

(** X4: forming the parameters twice changes nothing more. *)
Theorem form_params_idempotent (self : Handler)
    (params : gmap string Value) :
  _form_params self (_form_params self params) = _form_params self params.
Proof.
  apply map_eq. intros k.
  destruct (decide (k = "key")) as [->|Hkey].
  { rewrite !form_params_key. reflexivity. }
  destruct (decide (k = "callback")) as [->|Hcb].
  - destruct (String.eqb_spec (_json self) "") as [Hxml|Hjson].
    + rewrite !form_params_callback_xml by assumption. reflexivity.
    + rewrite (form_params_callback_json self (_form_params self params))
        by assumption. reflexivity.
  - rewrite form_params_other by assumption. reflexivity.
Qed.

(** X5: the names in the formed mapping are the supplied names and 'key',
    less 'callback' in XML mode. *)
Theorem form_params_dom (self : Handler) (params : gmap string Value) :
  dom (_form_params self params)
  = if String.eqb (_json self) "" then
      ({[ "key" ]} ∪ dom params) ∖ {[ "callback" ]}
    else {[ "key" ]} ∪ dom params.
Proof.
  rewrite form_params_eq. unfold str_truthy.
  destruct (String.eqb (_json self) ""); simpl.
  - destruct (has_key "callback" params) eqn:Hcb; simpl.
    + rewrite dom_delete_L, dom_insert_L. reflexivity.
    + rewrite dom_insert_L. apply has_key_false in Hcb.
      apply not_elem_of_dom in Hcb.
      apply set_eq. intros k.
      rewrite elem_of_difference, elem_of_union, !elem_of_singleton.
      split; [intros Hk; split; [exact Hk|]|intros [Hk _]; exact Hk].
      intros ->. destruct Hk as [Hk|Hk]; [discriminate Hk|contradiction].
  - rewrite andb_false_r, dom_insert_L. reflexivity.
Qed.

(** * More on the three request functions *)

(** X6: an exception of the transport (a connection error, say) comes out
    of each of the three request functions as it is, not wrapped, after
    the one request was attempted. *)
Theorem transport_failure_propagates (url post : Value)
    (params : gmap string Value) (w : World) (e : Exn) :
  server w (sent w) (mkRequest (verb_of post) url params) = inl e ->
  _make_request url post params w
  = (inl e, record_request w (mkRequest (verb_of post) url params)) /\
  _make_request_json url post params w
  = (inl e, record_request w (mkRequest (verb_of post) url params)) /\
  _make_request_xml url post params w
  = (inl e, record_request w (mkRequest (verb_of post) url params)).
Proof.
  intros Hdown.
  assert (Hraw : _make_request url post params w
                 = (inl e,
                    record_request w (mkRequest (verb_of post) url params))).
  { rewrite make_request_run. cbv zeta. rewrite Hdown. reflexivity. }
  rewrite make_request_json_run, make_request_xml_run, Hraw. auto.
Qed.

Lemma transport_failure_propagates_witness :
  _make_request_json (VStr "getLangs") (VBool true) ∅ offline
  = (inl (TransportError "ConnectionError"),
     record_request offline (mkRequest POST (VStr "getLangs") ∅)).
Proof.
  apply (transport_failure_propagates (VStr "getLangs") (VBool true) ∅
           offline (TransportError "ConnectionError")).
  reflexivity.
Defined.

(** X7: on a response of success status the JSON function returns the
    decoded body and the XML function the decoded tree; a body that does
    not decode makes them raise the decoder's error, the request having
    gone out. *)
Theorem decoding_on_success (url post : Value) (params : gmap string Value)
    (w : World) (r : Response) :
  server w (sent w) (mkRequest (verb_of post) url params) = inr r ->
  ok r = true ->
  _make_request_json url post params w
  = (match content r with
     | BodyJson j => inr j
     | _ => inl DecodeError
     end,
     record_request w (mkRequest (verb_of post) url params)) /\
  _make_request_xml url post params w
  = (match content r with
     | BodyXml root => inr root
     | _ => inl DecodeError
     end,
     record_request w (mkRequest (verb_of post) url params)).
Proof.
  intros Hanswer Hok.
  assert (Hraw : _make_request url post params w
                 = (inr r,
                    record_request w (mkRequest (verb_of post) url params))).
  { rewrite make_request_run. cbv zeta. rewrite Hanswer, Hok. reflexivity. }
  rewrite make_request_json_run, make_request_xml_run, Hraw.
  unfold json, fromstring. destruct (content r); auto.
Qed.

Lemma decoding_on_success_witness :
  _make_request_xml (VStr "getLangs") (VBool false) ∅
    (always (xml_answer flat_tree))
  = (inr flat_tree,
     record_request (always (xml_answer flat_tree))
                    (mkRequest GET (VStr "getLangs") ∅)) /\
  _make_request_json (VStr "getLangs") (VBool false) ∅
    (always (xml_answer flat_tree))
  = (inl DecodeError,
     record_request (always (xml_answer flat_tree))
                    (mkRequest GET (VStr "getLangs") ∅)).
Proof.
  destruct (decoding_on_success (VStr "getLangs") (VBool false) ∅
              (always (xml_answer flat_tree)) (xml_answer flat_tree)
              eq_refl eq_refl) as [Hjson Hxml].
  split; [exact Hxml|exact Hjson].
Defined.

(** * More on language-list retrieval *)

Lemma get_langs_refresh_world (self : Handler) (url : string) (update : bool)
    (params : gmap string Value) (w : World) :
  params !! "callback" = None ->
  params !! "endpoint" = None ->
  update || negb (obj_truthy (_cache self)) = true ->
  snd (_get_langs self url update params w)
  = record_request w (langs_request self params).
Proof.
  intros Hcb Hep Hrefresh.
  rewrite get_langs_refresh by assumption. cbv zeta.
  destruct (server w (sent w) (langs_request self params)) as [e|r];
    [reflexivity|].
  destruct (ok r); [|reflexivity].
  destruct (decoded self r); reflexivity.
Qed.

Lemma get_langs_callback_world (self : Handler) (url : string)
    (update : bool) (params : gmap string Value) (w : World) :
  is_Some (params !! "callback") ->
  snd (_get_langs self url update params w)
  = record_request w (callback_request self url params).
Proof.
  intros Hcb. rewrite get_langs_callback by assumption. cbv zeta.
  destruct (server w (sent w) (callback_request self url params)) as [e|r];
    [reflexivity|].
  destruct (ok r); reflexivity.
Qed.





(** X10: in XML mode a 'dirs' child without children counts as absent
    (an element without children is false): the fetch returns the texts
    of the top-level elements, the 'dirs' element's own text among
    them. *)
Theorem xml_childless_dirs_falls_back (self : Handler) (url : string)
    (update : bool) (params : gmap string Value) (w : World) (r : Response)
    (root dirs : Element) :
  _json self = "" ->
  params !! "callback" = None ->
  params !! "endpoint" = None ->
  update || negb (obj_truthy (_cache self)) = true ->
  server w (sent w) (langs_request self params) = inr r ->
  ok r = true ->
  content r = BodyXml root ->
  find root "dirs" = Some dirs ->
  elem_children dirs = [] ->
  _get_langs self url update params w
  = (inr (set_cache self (OValue (texts root)), OValue (texts root)),
     record_request w (langs_request self params)).
Proof.
  intros Hxml Hcb Hep Hrefresh Hanswer Hok Hbody Hfind Hkids.
  rewrite (get_langs_xml self url update params w r root) by assumption.
  unfold tree_langs. rewrite Hfind. simpl. rewrite Hkids. reflexivity.
Qed.

Lemma xml_childless_dirs_falls_back_witness :
  _get_langs xml_handler "" false ∅ (always (xml_answer childless_dirs_tree))
  = (inr (set_cache xml_handler (OValue (VList [VNone; VStr "en"])),
          OValue (VList [VNone; VStr "en"])),
     record_request (always (xml_answer childless_dirs_tree))
                    (langs_request xml_handler ∅)).
Proof.
  apply (xml_childless_dirs_falls_back xml_handler "" false ∅
           (always (xml_answer childless_dirs_tree))
           (xml_answer childless_dirs_tree) childless_dirs_tree
           (Elem "dirs" None [])
           eq_refl (lookup_empty _) (lookup_empty _)
           eq_refl eq_refl eq_refl eq_refl eq_refl eq_refl).
Defined.

(** X11: a fetch that goes to the network and is answered with a failure
    status raises the typed exception of that status, in JSON and in XML
    mode alike and whatever the body; a transport failure comes out as it
    is.  One request was sent in either case. *)
Theorem fetch_failure_raises (self : Handler) (url : string) (update : bool)
    (params : gmap string Value) (w : World) :
  params !! "callback" = None ->
  params !! "endpoint" = None ->
  update || negb (obj_truthy (_cache self)) = true ->
  (forall r,
      server w (sent w) (langs_request self params) = inr r ->
      ok r = false ->
      _get_langs self url update params w
      = (inl (YaTranslateException
                [VStr (default "Unknown code" (error_codes !! status_code r));
                 VInt (status_code r)]),
         record_request w (langs_request self params))) /\
  (forall e,
      server w (sent w) (langs_request self params) = inl e ->
      _get_langs self url update params w
      = (inl e, record_request w (langs_request self params))).
Proof.
  intros Hcb Hep Hrefresh. split.
  - intros r Hanswer Hok.
    rewrite get_langs_refresh by assumption. cbv zeta.
    rewrite Hanswer, Hok. reflexivity.
  - intros e Hdown.
    rewrite get_langs_refresh by assumption. cbv zeta.
    rewrite Hdown. reflexivity.
Qed.

Lemma fetch_failure_raises_witness :
  _get_langs xml_handler "" false ∅ (always denied)
  = (inl (YaTranslateException [VStr "Invalid API key"; VInt 401]),
     record_request (always denied) (langs_request xml_handler ∅)).
Proof.
  apply (proj1 (fetch_failure_raises xml_handler "" false ∅ (always denied)
                  (lookup_empty _) (lookup_empty _) eq_refl)
           denied eq_refl eq_refl).
Defined.

Lemma get_langs_fields (self self1 : Handler) (url : string)
    (update : bool) (params : gmap string Value) (w w1 : World) (v : PyObj) :
  _get_langs self url update params w = (inr (self1, v), w1) ->
  _api_key self1 = _api_key self /\
  _json self1 = _json self /\
  _url self1 = _url self.
Proof.
  intros Hrun. destruct (params !! "callback") as [cb|] eqn:Hcb.
  - rewrite get_langs_callback in Hrun by eauto. cbv zeta in Hrun.
    destruct (server w (sent w) (callback_request self url params)) as [e|r];
      [discriminate|].
    destruct (ok r); [|discriminate].
    injection Hrun as <- _ _. auto.
  - destruct (get_langs_returns_cache _ _ _ _ _ _ _ _ Hcb Hrun)
      as (_ & Hjson & Hurl & Hkey). auto.
Qed.

(** X12: a fetch that returns never changes the key, the format or the
    URL of the handler (the cache is the only attribute it assigns), and
    it logs no warning. *)
Theorem fetch_keeps_configuration (self self1 : Handler) (url : string)
    (update : bool) (params : gmap string Value) (w w1 : World) (v : PyObj) :
  _get_langs self url update params w = (inr (self1, v), w1) ->
  _api_key self1 = _api_key self /\
  _json self1 = _json self /\
  _url self1 = _url self /\
  warnings w1 = warnings w.
Proof.
  intros Hrun.
  destruct (get_langs_fields _ _ _ _ _ _ _ _ Hrun) as (Hkey & Hjson & Hurl).
  repeat split; try assumption.
  pose proof (get_langs_world self url update params w) as Hworld.
  cbv zeta in Hworld. rewrite Hrun in Hworld. simpl in Hworld.
  destruct Hworld as [->|[rq ->]]; reflexivity.
Qed.

Lemma fetch_keeps_configuration_witness :
  let w := always (json_answer (VList [VStr "en"])) in
  let self1 := set_cache json_handler (OValue (VList [VStr "en"])) in
  _get_langs json_handler "" true ∅ w
  = (inr (self1, OValue (VList [VStr "en"])),
     record_request w (langs_request json_handler ∅)) /\
  _api_key self1 = "123" /\ _json self1 = ".json" /\ _url self1 = "" /\
  warnings (record_request w (langs_request json_handler ∅)) = warnings w.
Proof.
  intros w self1.
  assert (Hrun : _get_langs json_handler "" true ∅ w
                 = (inr (self1, OValue (VList [VStr "en"])),
                    record_request w (langs_request json_handler ∅)))
    by (vm_compute; reflexivity).
  split; [exact Hrun|].
  apply (fetch_keeps_configuration json_handler self1 "" true ∅ w _ _ Hrun).
Defined.

Lemma fetch_parameters_post (self : Handler) (params : gmap string Value) :
  default (VBool false)
    ((_form_params self params ∪ {[ "post" := VBool false ]}) !! "post")
  = default (VBool false) (params !! "post").
Proof.
  rewrite lookup_union, form_params_other by discriminate.
  rewrite lookup_singleton_eq. destruct (params !! "post"); reflexivity.
Qed.

Lemma fetch_parameters_key (self : Handler) (params : gmap string Value) :
  (_form_params self params ∪ {[ "post" := VBool false ]}) !! "key"
  = Some (VStr (_api_key self)).
Proof.
  apply lookup_union_Some_l, form_params_key.
Qed.

(** X13: a fetch sends at most one request, and any request it sends
    carries the API key under 'key', has no 'post' parameter (the keyword
    chooses the verb instead: POST when it is true, GET when it is false
    or absent) and, in XML mode, no 'callback' parameter. *)
Theorem fetch_request_shape (self : Handler) (url : string) (update : bool)
    (params : gmap string Value) (w : World) :
  snd (_get_langs self url update params w) = w \/
  exists rq,
    snd (_get_langs self url update params w) = record_request w rq /\
    req_params rq !! "key" = Some (VStr (_api_key self)) /\
    req_params rq !! "post" = None /\
    req_verb rq = verb_of (default (VBool false) (params !! "post")) /\
    (_json self = "" -> req_params rq !! "callback" = None).
Proof.
  destruct (params !! "callback") as [cb|] eqn:Hcb.
  { right. exists (callback_request self url params).
    split; [apply get_langs_callback_world; eauto|].
    unfold callback_request. simpl.
    split; [|split; [|split]].
    - rewrite lookup_delete_ne by discriminate. apply fetch_parameters_key.
    - apply lookup_delete_eq.
    - rewrite fetch_parameters_post. reflexivity.
    - intros Hxml. rewrite lookup_delete_ne by discriminate.
      rewrite lookup_union_l by (apply lookup_singleton_ne; discriminate).
      apply form_params_callback_xml. exact Hxml. }
  destruct (update || negb (obj_truthy (_cache self))) eqn:Hrefresh.
  - destruct (params !! "endpoint") as [x|] eqn:Hep.
    { left. rewrite get_langs_collision by eauto. reflexivity. }
    right. exists (langs_request self params).
    split; [apply get_langs_refresh_world; assumption|].
    unfold langs_request, combined_request. simpl.
    split; [|split; [|split]].
    + rewrite lookup_delete_ne by discriminate.
      rewrite lookup_delete_ne by discriminate.
      rewrite lookup_delete_ne by discriminate.
      apply fetch_parameters_key.
    + apply lookup_delete_eq.
    + rewrite lookup_delete_eq. simpl.
      rewrite fetch_parameters_post. reflexivity.
    + intros Hxml.
      rewrite lookup_delete_ne by discriminate.
      rewrite lookup_delete_ne by discriminate.
      rewrite lookup_delete_ne by discriminate.
      rewrite lookup_union_l by (apply lookup_singleton_ne; discriminate).
      apply form_params_callback_xml. exact Hxml.
  - left. apply orb_false_elim in Hrefresh as [-> Hcache].
    apply negb_false_iff in Hcache.
    rewrite get_langs_hit by assumption. reflexivity.
Qed.

Lemma fetch_request_shape_witness :
  let params : gmap string Value :=
    {[ "callback" := VStr "show"; "post" := VBool true; "ui" := VStr "en" ]} in
  exists rq,
    snd (_get_langs xml_handler "" false params offline)
    = record_request offline rq /\
    req_params rq !! "key" = Some (VStr "123") /\
    req_verb rq = POST /\
    req_params rq !! "callback" = None.
Proof.
  intros params.
  destruct (fetch_request_shape xml_handler "" false params offline)
    as [Hnone|(rq & Hsent & Hkey & _ & Hverb & Hxml)].
  - exfalso. apply (f_equal (fun w => length (sent w))) in Hnone.
    vm_compute in Hnone. discriminate Hnone.
  - exists rq. split; [exact Hsent|]. split; [exact Hkey|].
    split; [rewrite Hverb; vm_compute; reflexivity|].
    apply Hxml. reflexivity.
Defined.

(** X14: a handler fresh from the constructor has nothing cached: its
    first fetch without callback goes to the network, update flag or
    not. *)
Theorem first_fetch_goes_out (api_key : string) (xml : option bool)
    (w w0 : World) (self : Handler) (url : string) (update : bool)
    (params : gmap string Value) :
  __init__ api_key xml w = (inr self, w0) ->
  params !! "callback" = None ->
  params !! "endpoint" = None ->
  w0 = w /\
  snd (_get_langs self url update params w0)
  = record_request w0 (langs_request self params).
Proof.
  unfold __init__. destruct (negb (str_truthy api_key)); [discriminate|].
  intros Hinit Hcb Hep. injection Hinit as <- <-.
  split; [reflexivity|].
  apply get_langs_refresh_world; try assumption.
  simpl. apply orb_true_r.
Qed.

Lemma first_fetch_goes_out_witness :
  __init__ "123" (Some true) offline = (inr xml_handler, offline) /\
  snd (_get_langs xml_handler "" false ∅ offline)
  = record_request offline (langs_request xml_handler ∅).
Proof.
  split; [reflexivity|].
  apply (first_fetch_goes_out "123" (Some true) offline offline xml_handler
           "" false ∅ eq_refl (lookup_empty _) (lookup_empty _)).
Defined.

(** X15: the cache serves in XML mode as in JSON mode: after a fetch
    without callback that returned a truthy value, in either mode, a later
    call without update and without callback returns that value, leaves
    the handler as it is and sends nothing. *)
Theorem cache_hit_any_mode (self self1 : Handler) (url url' : string)
    (update : bool) (params params' : gmap string Value) (w w1 : World)
    (v : PyObj) :
  params !! "callback" = None ->
  _get_langs self url update params w = (inr (self1, v), w1) ->
  obj_truthy v = true ->
  params' !! "callback" = None ->
  _get_langs self1 url' false params' w1 = (inr (self1, v), w1).
Proof.
  intros Hcb Hrun Htruthy Hcb'.
  destruct (get_langs_returns_cache _ _ _ _ _ _ _ _ Hcb Hrun) as (Hcache & _).
  rewrite get_langs_hit by (rewrite ?Hcache; assumption).
  rewrite Hcache. reflexivity.
Qed.

Lemma cache_hit_any_mode_witness :
  let w := always (xml_answer dirs_tree) in
  let langs := OValue (VList [VStr "en-ru"; VStr "ru-en"]) in
  let self1 := set_cache xml_handler langs in
  let w1 := record_request w (langs_request xml_handler ∅) in
  _get_langs xml_handler "" false ∅ w = (inr (self1, langs), w1) /\
  _get_langs self1 "" false {[ "ui" := VStr "en" ]} w1
  = (inr (self1, langs), w1).
Proof.
  intros w langs self1 w1.
  assert (Hfirst : _get_langs xml_handler "" false ∅ w
                   = (inr (self1, langs), w1)) by (vm_compute; reflexivity).
  split; [exact Hfirst|].
  apply (cache_hit_any_mode xml_handler self1 "" "" false ∅
           {[ "ui" := VStr "en" ]} w w1 langs
           (lookup_empty _) Hfirst eq_refl).
  apply lookup_singleton_ne. discriminate.
Defined.

(** * More on the key validation probe *)

Lemma probe_fetch_plain (self : Handler) (url : string)
    (params : gmap string Value) :
  params !! "update" = None ->
  probe_fetch self url params = _get_langs self url true params.
Proof.
  intros Hupdate. unfold probe_fetch.
  apply has_key_false in Hupdate. rewrite Hupdate. reflexivity.
Qed.

(** X16: a probe answered with a failure status (a rejected key, say)
    returns false, leaves the handler as it is, has sent one request and
    logged one warning: the typed exception of that status. *)
Theorem ok_false_on_failure_status (self : Handler) (url : string)
    (params : gmap string Value) (w : World) (r : Response) :
  params !! "update" = None ->
  params !! "callback" = None ->
  params !! "endpoint" = None ->
  server w (sent w) (langs_request self params) = inr r ->
  ok r = false ->
  _ok self url params w
  = (inr (self, false),
     record_warning
       (record_request w (langs_request self params))
       (YaTranslateException
          [VStr (default "Unknown code" (error_codes !! status_code r));
           VInt (status_code r)])).
Proof.
  intros Hupdate Hcb Hep Hanswer Hok. unfold _ok.
  rewrite probe_fetch_plain by assumption.
  rewrite get_langs_refresh by (assumption || reflexivity). cbv zeta.
  rewrite Hanswer, Hok. reflexivity.
Qed.

Lemma ok_false_on_failure_status_witness :
  _ok json_handler "" ∅ (always denied)
  = (inr (json_handler, false),
     record_warning
       (record_request (always denied) (langs_request json_handler ∅))
       (YaTranslateException [VStr "Invalid API key"; VInt 401])).
Proof.
  apply (ok_false_on_failure_status json_handler "" ∅ (always denied) denied
           (lookup_empty _) (lookup_empty _) (lookup_empty _)
           eq_refl eq_refl).
Defined.

(** X17: a probe in JSON mode answered with a success status and a JSON
    body returns true, logs nothing and leaves the decoded body in the
    cache; when that body is truthy, a fetch without update and callback
    that follows is served from the cache without a request. *)
Theorem ok_true_fills_cache (self : Handler) (url : string)
    (params : gmap string Value) (w : World) (r : Response) (j : Value) :
  _json self <> "" ->
  params !! "update" = None ->
  params !! "callback" = None ->
  params !! "endpoint" = None ->
  server w (sent w) (langs_request self params) = inr r ->
  ok r = true ->
  content r = BodyJson j ->
  let self1 := set_cache self (OValue j) in
  let w1 := record_request w (langs_request self params) in
  _ok self url params w = (inr (self1, true), w1) /\
  warnings w1 = warnings w /\
  (truthy j = true ->
   forall url' (params' : gmap string Value),
     params' !! "callback" = None ->
     _get_langs self1 url' false params' w1 = (inr (self1, OValue j), w1)).
Proof.
  intros Hjson Hupdate Hcb Hep Hanswer Hok Hbody self1 w1.
  split; [|split].
  - unfold _ok. rewrite probe_fetch_plain by assumption.
    rewrite get_langs_refresh by (assumption || reflexivity). cbv zeta.
    rewrite Hanswer, Hok. unfold decoded.
    apply str_truthy_true in Hjson. rewrite Hjson, Hbody. reflexivity.
  - reflexivity.
  - intros Htruthy url' params' Hcb'.
    apply (get_langs_hit self1 url' params' w1 Hcb'). exact Htruthy.
Qed.

Lemma ok_true_fills_cache_witness :
  let j := VDict [("dirs", VList [VStr "en-ru"])] in
  let w := always (json_answer j) in
  let self1 := set_cache json_handler (OValue j) in
  let w1 := record_request w (langs_request json_handler ∅) in
  _ok json_handler "" ∅ w = (inr (self1, true), w1) /\
  _get_langs self1 "" false ∅ w1 = (inr (self1, OValue j), w1).
Proof.
  intros j w self1 w1.
  destruct (ok_true_fills_cache json_handler "" ∅ w (json_answer j) j
              ltac:(discriminate) (lookup_empty _) (lookup_empty _)
              (lookup_empty _) eq_refl eq_refl eq_refl)
    as (Hok & _ & Hserved).
  split; [exact Hok|].
  apply (Hserved eq_refl "" ∅ (lookup_empty _)).
Defined.

(** X18: a probe never changes the key, the format or the URL of the
    handler, and sends at most one request; a keyword named 'update'
    collides with the probe's own and makes it return false without
    sending anything. *)
Theorem ok_keeps_configuration (self : Handler) (url : string)
    (params : gmap string Value) (w : World) :
  (forall self' answer w',
      _ok self url params w = (inr (self', answer), w') ->
      _api_key self' = _api_key self /\
      _json self' = _json self /\
      _url self' = _url self /\
      (sent w' = sent w \/ exists rq, sent w' = (sent w ++ [rq])%list)) /\
  (is_Some (params !! "update") ->
   exists err,
     _ok self url params w = (inr (self, false), record_warning w err)).
Proof.
  split.
  - intros self' answer w'. unfold _ok, probe_fetch.
    destruct (has_key "update" params).
    { simpl. intros Heq. injection Heq as <- _ <-. auto. }
    pose proof (get_langs_world self url true params w) as Hworld.
    cbv zeta in Hworld.
    destruct (_get_langs self url true params w)
      as [[err|[self1 langs]] w1] eqn:Hrun; simpl in Hworld.
    + simpl. intros Heq. injection Heq as <- _ <-.
      repeat split; try reflexivity.
      destruct Hworld as [->|[rq ->]]; simpl; eauto.
    + intros Heq. injection Heq as <- _ <-.
      destruct (get_langs_fields _ _ _ _ _ _ _ _ Hrun)
        as (Hkey & Hjson & Hurl).
      repeat split; try assumption.
      destruct Hworld as [->|[rq ->]]; simpl; eauto.
  - intros Hupdate. apply has_key_true in Hupdate.
    unfold _ok, probe_fetch. rewrite Hupdate.
    eexists. reflexivity.
Qed.

Lemma ok_keeps_configuration_witness :
  exists err,
    _ok json_handler "" {[ "update" := VBool false ]} offline
    = (inr (json_handler, false), record_warning offline err).
Proof.
  apply (proj2 (ok_keeps_configuration json_handler ""
                  {[ "update" := VBool false ]} offline)).
  exists (VBool false). apply lookup_singleton_eq.
Defined.
